(** * S&P 500 standard-deviation monitor: the analysis cell and the deploy job

    The development embeds two artefacts of the repository:

    - the analysis cell of [erase.ipynb] (fetch, rolling statistics,
      threshold classification, the two report values), and
    - the scheduled workflow that runs the monitor and publishes the
      generated files to the [gh-pages] branch.

    Prices and statistics are IEEE-754 binary64 values, as [numpy.float64]
    has them; they are modelled with the Standard Library's [spec_float]
    (precision 53, maximal exponent 1024), whose operations are executable
    and include NaN, the infinities and the signed zeros. *)

From Stdlib Require Import ZArith QArith Qabs Lia Bool SpecFloat.
From stdpp Require Import base list strings gmap.

Local Open Scope Z_scope.

(* ===================================================================== *)
(** ** Binary64 arithmetic *)
(* ===================================================================== *)

Module F64.

Definition prec : Z := 53.
Definition emax : Z := 1024.

Definition float : Type := spec_float.

Definition nan : float := S754_nan.
Definition pinf : float := S754_infinity false.
Definition ninf : float := S754_infinity true.

(** The value of an integer literal, rounded to nearest even. *)
Definition of_Z (z : Z) : float := binary_normalize prec emax z 0 false.

Definition add : float -> float -> float := SFadd prec emax.
Definition sub : float -> float -> float := SFsub prec emax.
Definition mul : float -> float -> float := SFmul prec emax.
Definition div : float -> float -> float := SFdiv prec emax.
Definition sqrt : float -> float := SFsqrt prec emax.
Definition abs : float -> float := SFabs.
Definition opp : float -> float := SFopp.

(** Python's [<] and [<=] on floats: false as soon as an operand is NaN. *)
Definition ltb : float -> float -> bool := SFltb.
Definition leb : float -> float -> bool := SFleb.

Definition is_nan (x : float) : bool :=
  match x with S754_nan => true | _ => false end.

Definition is_inf (x : float) : bool :=
  match x with S754_infinity _ => true | _ => false end.

Definition is_zero (x : float) : bool :=
  match x with S754_zero _ => true | _ => false end.

Definition is_finite (x : float) : bool :=
  match x with S754_zero _ | S754_finite _ _ _ => true | _ => false end.

(** A decimal literal [n / d] with [n] and [d] exactly representable: the
    correctly rounded quotient is the binary64 value nearest to the
    decimal, which is what the Python parser yields. *)
Definition lit (n d : Z) : float := div (of_Z n) (of_Z d).

Definition zero : float := of_Z 0.
Definition two : float := of_Z 2.
Definition three : float := of_Z 3.

(** Well-formed binary64 data: a canonical mantissa and an exponent in
    range.  Every operation above returns such a value. *)
Definition valid (x : float) : Prop := valid_binary prec emax x = true.

(** The real number a finite value denotes.  No exponent of a valid
    value is below -1074, so the number times [2 ^ 1074] is an integer;
    [value] divides it back.  NaN and the infinities denote no number
    and are given 0. *)
Definition scaled (x : float) : Z :=
  match x with
  | S754_finite s m e => cond_Zopp s (Zpos m * 2 ^ (e + 1074))
  | _ => 0
  end.

Definition value (x : float) : Q := Qmake (scaled x) (2 ^ 1074)%positive.

(** The magnitude of a finite value, on the same integer scale. *)
Definition mag (m : positive) (e : Z) : Z := Zpos m * 2 ^ (e + 1074).

End F64.

Import F64.

(* ===================================================================== *)
(** ** Status classification (the threshold chain of the cell) *)
(* ===================================================================== *)

Inductive tier : Type := ALERT | NORMAL | EXTREME.

(** The text stored in [status], decorative symbol included. *)
Definition status_label (s : tier) : string :=
  match s with
  | ALERT => "🚨 ALERT"
  | NORMAL => "✅ NORMAL"
  | EXTREME => "⚠️ EXTREME"
  end.

Definition status_color (s : tier) : string :=
  match s with
  | ALERT => "#ff4444"
  | NORMAL => "#44ff44"
  | EXTREME => "#ff8800"
  end.

Inductive direction : Type := above | below.

Definition direction_label (d : direction) : string :=
  match d with above => "above" | below => "below" end.

(** [2.0 <= abs_std <= 3.0], a chained comparison: both halves are
    evaluated with [and]. *)
Definition in_alert_band (abs_std : float) : bool :=
  leb two abs_std && leb abs_std three.

(** if 2.0 <= abs_std <= 3.0: ALERT / elif abs_std < 2.0: NORMAL / else: EXTREME *)
Definition status_of_abs (abs_std : float) : tier :=
  if in_alert_band abs_std then ALERT
  else if ltb abs_std two then NORMAL
  else EXTREME.

(** [abs_std = abs(std_away)] followed by the chain. *)
Definition classify (std_away : float) : tier :=
  status_of_abs (abs std_away).

(** [direction = "above" if std_away > 0 else "below"] *)
Definition direction_of (std_away : float) : direction :=
  if ltb zero std_away then above else below.

(** The ['alert'] entry of [data_json]. *)
Definition alert_of (std_away : float) : bool :=
  in_alert_band (abs std_away).

(* ===================================================================== *)
(** ** Outcomes of a run: a value, or an uncaught Python exception *)
(* ===================================================================== *)

Inductive exn : Type :=
| IndexError      (* [iloc[-1]] on an empty frame *)
| DownloadError.  (* the remote query itself raised *)

Inductive result (A : Type) : Type :=
| Done (a : A)
| Raised (e : exn).

Arguments Done {A} a.
Arguments Raised {A} e.

Definition bind {A B : Type} (r : result A) (k : A -> result B) : result B :=
  match r with
  | Done a => k a
  | Raised e => Raised e
  end.

Notation "'try' x <- r 'in' k" := (bind r (fun x => k))
  (at level 10, x name, r at level 100, k at level 200, only parsing).

Definition succeeded {A : Type} (r : result A) : bool :=
  match r with Done _ => true | Raised _ => false end.

(** Exit status of the interpreter: 0 when the script runs to its end, 1
    when an exception is left uncaught. *)
Definition exit_status {A : Type} (r : result A) : Z :=
  match r with Done _ => 0 | Raised _ => 1 end.

(* ===================================================================== *)
(** ** Rolling statistics *)
(* ===================================================================== *)

(** The two window aggregates of the data-frame library, [mean] and [std]
    of one window of samples.  They are an interface of the development:
    every statement below that does not name an instance holds for all of
    them. *)
Class WindowOps : Type := {
  win_mean : list float -> float;
  win_std : list float -> float
}.

(** [rolling(window=w)]: the samples are visited in order, the window keeps
    the last [w] of them, and a position is NaN until the window holds
    [w] samples ([min_periods] defaults to the window length). *)
Definition push_window (w : nat) (buf : list float) (x : float) : list float :=
  let buf' := buf ++ [x] in
  skipn (length buf' - w)%nat buf'.

Fixpoint roll (w : nat) (agg : list float -> float)
    (buf : list float) (xs : list float) : list float :=
  match xs with
  | [] => []
  | x :: rest =>
      let buf' := push_window w buf x in
      (if (length buf' <? w)%nat then nan else agg buf')
        :: roll w agg buf' rest
  end.

Definition rolling (w : nat) (agg : list float -> float)
    (xs : list float) : list float :=
  roll w agg [] xs.

(** The window once the samples [seen] were visited (their last [w]), and
    the entry the rolling aggregate holds at that position. *)
Definition window_of (w : nat) (seen : list float) : list float :=
  skipn (length seen - w)%nat seen.

Definition entry (w : nat) (agg : list float -> float)
    (seen : list float) : float :=
  if (length seen <? w)%nat then nan else agg (window_of w seen).

(** A reference instance of the aggregates: the arithmetic mean, and the
    sample standard deviation (divisor [n - 1]), each evaluated left to
    right in binary64. *)
Definition fsum (xs : list float) : float := fold_left add xs zero.

Definition naive_mean (xs : list float) : float :=
  div (fsum xs) (of_Z (Z.of_nat (length xs))).

Definition naive_std (xs : list float) : float :=
  let m := naive_mean xs in
  let sq := map (fun x => mul (sub x m) (sub x m)) xs in
  sqrt (div (fsum sq) (of_Z (Z.of_nat (length xs) - 1))).

Definition naive_ops : WindowOps :=
  {| win_mean := naive_mean; win_std := naive_std |}.

(* ===================================================================== *)
(** ** The analysis cell *)
(* ===================================================================== *)

(** One row of the downloaded frame: the index label (a trading day,
    rendered [%Y-%m-%d]) and the value of the [Close] column. *)
Record row : Type := { day : string; close : float }.

(** [dropna()]: rows whose value is NaN are removed; infinities stay. *)
Definition dropna (rows : list row) : list row :=
  filter (fun r => is_nan (close r) = false) rows.

(** [s.iloc[-1]]: the last entry; IndexError on an empty series. *)
Definition iloc_last {A : Type} (xs : list A) : result A :=
  match last xs with
  | Some x => Done x
  | None => Raised IndexError
  end.

(** [s.tail(n)]: the last [n] entries, all of them when there are fewer. *)
Definition tail {A : Type} (n : nat) (xs : list A) : list A :=
  skipn (length xs - n)%nat xs.

(** The slots interpolated into [html_content]. *)
Record html_doc : Type := {
  h_status_color : string;
  h_last_updated : string;
  h_current_price : float;
  h_current_ma : float;
  h_direction : direction;
  h_abs_std : float;
  h_labels : list string;
  h_prices : list float;
  h_mas : list float
}.

(** [data_json]. *)
Record json_doc : Type := {
  timestamp : string;
  current_price : float;
  ma_200 : float;
  std_200 : float;
  std_away : float;
  status : string;
  j_direction : string;
  alert : bool
}.

Record artifacts : Type := { html_content : html_doc; data_json : json_doc }.

(** What the cell reads from outside: the answer of the remote query and
    the two readings of the clock. *)
Record env : Type := {
  download : result (list row);
  now_html : string;
  now_json : string
}.

Definition window : nat := 200.

Definition analysis {ops : WindowOps} (e : env) : result artifacts :=
  try sp500 <- download e in
  let closes := dropna sp500 in
  let values := map close closes in
  let ma := rolling window win_mean values in
  let sd := rolling window win_std values in
  try cur_price <- iloc_last values in
  try cur_ma <- iloc_last ma in
  try cur_std <- iloc_last sd in
  let sigma := div (sub cur_price cur_ma) cur_std in
  let last_30_days := tail 30 closes in
  let ma_30_days := tail 30 ma in
  let dates := map day last_30_days in
  let prices := map close last_30_days in
  let mas := ma_30_days in
  let abs_std := abs sigma in
  let st := status_of_abs abs_std in
  let dir := direction_of sigma in
  Done {|
    html_content := {|
      h_status_color := status_color st;
      h_last_updated := now_html e;
      h_current_price := cur_price;
      h_current_ma := cur_ma;
      h_direction := dir;
      h_abs_std := abs_std;
      h_labels := dates;
      h_prices := prices;
      h_mas := mas |};
    data_json := {|
      timestamp := now_json e;
      current_price := cur_price;
      ma_200 := cur_ma;
      std_200 := cur_std;
      std_away := sigma;
      status := status_label st;
      j_direction := direction_label dir;
      alert := in_alert_band abs_std |}
  |}.

(** The statistics at the latest date, as the cell reads them. *)
Definition current_std {ops : WindowOps} (rows : list row) : result float :=
  iloc_last (rolling window win_std (map close (dropna rows))).

Definition current_ma {ops : WindowOps} (rows : list row) : result float :=
  iloc_last (rolling window win_mean (map close (dropna rows))).

(** What a generated file holds: the rendered dashboard, the summary
    record, or plain text. *)
Inductive content : Type :=
| Html (h : html_doc)
| Json (j : json_doc)
| Text (s : string).

(** The fixed names of the two output files. *)
Definition dashboard_path : string := "sp500_dashboard.html".
Definition summary_path : string := "sp500_analysis.json".

(** Modelled from the spec: the write of [html_content] and [data_json] to
    their fixed paths, which follows the cell in the deployed script and is
    not part of the notebook.  Both files are written when the analysis ran
    to its end; an exception raised before leaves the directory
    untouched. *)
Definition written (r : result artifacts) : list (string * content) :=
  match r with
  | Done a =>
      [(dashboard_path, Html (html_content a));
       (summary_path, Json (data_json a))]
  | Raised _ => []
  end.

(** One run of the script as a process: its exit status and the files it
    left in the working directory. *)
Definition run {ops : WindowOps} (e : env) : Z * list (string * content) :=
  let r := analysis e in (exit_status r, written r).

(* ===================================================================== *)
(** ** Sample inputs *)
(* ===================================================================== *)

(** Sample inputs: [n] trading days at the same closing price, and an
    environment whose download returns the given rows. *)
Definition flat_rows (n : nat) : list row :=
  repeat {| day := "2025-01-02"; close := of_Z 100 |} n.

(** [n] days that alternate between 990 and 1010, then one day at [final]. *)
Definition swing_rows (n : nat) (final : Z) : list row :=
  map (fun i => {| day := "2025-01-02";
                   close := of_Z (if Nat.even i then 990 else 1010) |})
      (seq 0 n)
  ++ [ {| day := "2025-06-30"; close := of_Z final |} ].

Definition env_of (rows : list row) : env :=
  {| download := Done rows;
     now_html := "2025-06-30 10:00:00 ET";
     now_json := "2025-06-30T10:00:00" |}.

(* ===================================================================== *)
(** ** The scheduled job that runs the monitor and publishes its files *)
(* ===================================================================== *)

Module Workflow.

#[export] Instance float_eq_dec : EqDecision spec_float.
Proof. solve_decision. Defined.
#[export] Instance direction_eq_dec : EqDecision direction.
Proof. solve_decision. Defined.
#[export] Instance html_doc_eq_dec : EqDecision html_doc.
Proof. solve_decision. Defined.
#[export] Instance json_doc_eq_dec : EqDecision json_doc.
Proof. solve_decision. Defined.
#[export] Instance content_eq_dec : EqDecision content.
Proof. solve_decision. Defined.

(** A directory: file name to content. *)
Abbreviation dir := (gmap string content).

(** The shell pattern [*EXT]: a name that ends in [ext] and is not hidden. *)
Definition has_ext (ext name : string) : bool :=
  let n := String.length name in
  let k := String.length ext in
  (k <=? n)%nat
  && String.eqb (String.substring (n - k) k name) ext
  && negb (String.prefix "." name).

Definition glob (ext : string) (d : dir) : dir :=
  filter (λ kv, has_ext ext kv.1 = true) d.

(** [cp *EXT dst/ 2>/dev/null || echo ...]: the matching files are copied
    over those of the destination; with no match [cp] fails and [echo]
    makes the command succeed. *)
Definition cp_glob (ext : string) (src dst : dir) : dir :=
  glob ext src ∪ dst.

(** [rm -f *.html *.png *.json *.log] *)
Definition generated (name : string) : bool :=
  has_ext ".html" name || has_ext ".png" name
  || has_ext ".json" name || has_ext ".log" name.

Definition rm_generated (d : dir) : dir :=
  filter (λ kv, generated kv.1 = false) d.

(** What one invocation of the monitor leaves behind: its exit status and
    the files it wrote into the working directory. *)
Record monitor_run : Type := {
  m_status : Z;
  m_files : list (string * content)
}.

Record runner : Type := {
  workdir : dir;    (* the checkout of the main branch *)
  deploy : dir;     (* /tmp/website-deploy *)
  branch : dir;     (* the tree of gh-pages on the remote *)
  pushed : bool     (* a commit was pushed to gh-pages *)
}.

(** A step yields the status of its script and the new state; the job
    runs its steps in order and stops at the first non-zero status. *)
Definition step : Type := runner -> Z * runner.

Fixpoint run_steps (ss : list step) (r : runner) : Z * runner :=
  match ss with
  | [] => (0, r)
  | s :: rest =>
      let '(st, r') := s r in
      if st =? 0 then run_steps rest r' else (st, r')
  end.

(** [a || b]: the status of [b] when [a] fails, 0 otherwise. *)
Definition or_else (a b : Z) : Z := if a =? 0 then 0 else b.

Definition echo : Z := 0.

(** [python sp500_monitor.py || echo "Full version failed, ..."] *)
Definition run_analysis (m : monitor_run) : step := fun r =>
  (or_else (m_status m) echo,
   {| workdir := list_to_map (m_files m) ∪ workdir r;
      deploy := deploy r; branch := branch r; pushed := pushed r |}).

Definition index_path : string := "index.html".

Definition fallback_index (date : string) : content :=
  Text ("<html><head><title>S&P 500 Dashboard</title></head><body><h1>Dashboard Error</h1><p>Dashboard file not found</p><p>Generated: "
          +:+ date +:+ "</p></body></html>").

Definition error_index : content :=
  Text "<html><body><h1>Error</h1><p>No dashboard files generated</p></body></html>".

(** Step "Create temporary deployment directory". *)
Definition create_deploy_dir (date : string) : step := fun r =>
  let d0 : dir := ∅ in
  let d1 := cp_glob ".html" (workdir r) d0 in
  let d2 := cp_glob ".png" (workdir r) d1 in
  let d3 := cp_glob ".json" (workdir r) d2 in
  let d4 := cp_glob ".log" (workdir r) d3 in
  let d5 :=
    match d4 !! dashboard_path with
    | Some page => <[index_path := page]> d4
    | None => <[index_path := fallback_index date]> d4
    end in
  (0, {| workdir := workdir r; deploy := d5;
         branch := branch r; pushed := pushed r |}).

(** Step "Deploy to GitHub Pages": the generated files are removed from
    the working directory, the tree of gh-pages is cleared and filled
    from the deployment directory, and a commit is pushed when the tree
    changed.  The git commands themselves are taken to succeed. *)
Definition deploy_pages : step := fun r =>
  let tree : dir :=
    if decide (deploy r = ∅) then {[ index_path := error_index ]}
    else deploy r in
  (0, {| workdir := rm_generated (workdir r); deploy := deploy r;
         branch := tree;
         pushed := bool_decide (tree ≠ branch r) |}).

Definition job (m : monitor_run) (date : string)
    (checkout gh_pages : dir) : Z * runner :=
  run_steps [run_analysis m; create_deploy_dir date; deploy_pages]
    {| workdir := checkout; deploy := ∅; branch := gh_pages; pushed := false |}.

(** The monitor of the job, when it is the analysis above. *)
Definition monitor_of {ops : WindowOps} (e : env) : monitor_run :=
  let '(st, files) := run e in {| m_status := st; m_files := files |}.

End Workflow.

(* ===================================================================== *)
(** ** The order of the tiers, and the schedule of the job *)
(* ===================================================================== *)

(** How alarming a tier is: NORMAL below ALERT below EXTREME. *)
Definition severity (t : tier) : nat :=
  match t with NORMAL => 0 | ALERT => 1 | EXTREME => 2 end.

Module Cron.

(** One field of a schedule line. *)
Inductive field : Type :=
| Any                          (* [*] *)
| At (v : nat)                 (* a number *)
| Range (lo hi step : nat).    (* [lo-hi/step]; [lo-hi] is step 1 *)

Definition field_matches (f : field) (v : nat) : bool :=
  match f with
  | Any => true
  | At n => (v =? n)%nat
  | Range lo hi step =>
      (lo <=? v)%nat && (v <=? hi)%nat && ((v - lo) mod step =? 0)%nat
  end.

Record line : Type := {
  minute : field;
  hour : field;
  day_of_month : field;
  month : field;
  day_of_week : field
}.

(** A minute of the calendar, in UTC; weekday 0 is Sunday. *)
Record instant : Type := {
  i_minute : nat;
  i_hour : nat;
  i_day : nat;
  i_month : nat;
  i_weekday : nat
}.

(** The two day fields: a [*] leaves the decision to the other field; when
    both are restricted either may match. *)
Definition day_matches (c : line) (t : instant) : bool :=
  match day_of_month c, day_of_week c with
  | Any, f => field_matches f (i_weekday t)
  | f, Any => field_matches f (i_day t)
  | f, g => field_matches f (i_day t) || field_matches g (i_weekday t)
  end.

Definition fires (c : line) (t : instant) : bool :=
  field_matches (minute c) (i_minute t)
  && field_matches (hour c) (i_hour t)
  && field_matches (month c) (i_month t)
  && day_matches c t.

(** [cron: '30 13-20/2 * * 1-5'] *)
Definition schedule : line :=
  {| minute := At 30;
     hour := Range 13 20 2;
     day_of_month := Any;
     month := Any;
     day_of_week := Range 1 5 1 |}.

End Cron.

(* ===================================================================== *)
(** ** Facts about binary64 comparison *)
(* ===================================================================== *)

Section FloatOrder.

Lemma compare_antisym (x y : float) :
  SFcompare y x = option_map CompOpp (SFcompare x y).
Proof.
  destruct x as [sx | sx | | sx mx ex], y as [sy | sy | | sy my ey];
    simpl; try reflexivity;
    try (destruct sx; reflexivity); try (destruct sy; reflexivity);
    try (destruct sx, sy; reflexivity).
  pose proof (Pos.compare_cont_antisym mx my Eq) as Hm. simpl in Hm.
  destruct sx, sy; simpl; try reflexivity;
    rewrite (Z.compare_antisym ex ey);
    destruct (ex ?= ey); simpl; try reflexivity;
    rewrite <- Hm; try reflexivity.
Qed.

Lemma ltb_leb_false (x y : float) : ltb x y = true -> leb y x = false.
Proof.
  unfold ltb, leb, SFltb, SFleb. rewrite (compare_antisym x y).
  destruct (SFcompare x y) as [[ | | ] | ]; simpl; congruence.
Qed.

Lemma leb_ltb_false (x y : float) : leb x y = true -> ltb y x = false.
Proof.
  unfold ltb, leb, SFltb, SFleb. rewrite (compare_antisym x y).
  destruct (SFcompare x y) as [[ | | ] | ]; simpl; congruence.
Qed.

Lemma compare_cont_Eq (p q : positive) :
  PosDef.Pos.compare_cont Eq p q = Pos.compare p q.
Proof. reflexivity. Qed.

Ltac order_cases :=
  repeat match goal with
  | |- context [Z.compare ?a ?b] =>
      destruct (Z.compare_spec a b)
  | |- context [PosDef.Pos.compare_cont Eq ?a ?b] =>
      rewrite (compare_cont_Eq a b)
  | |- context [Pos.compare ?a ?b] =>
      destruct (Pos.compare_spec a b)
  end.

Lemma ltb_trans (x y z : float) :
  ltb x y = true -> ltb y z = true -> ltb x z = true.
Proof.
  unfold ltb, SFltb.
  destruct x as [sx | sx | | sx mx ex], y as [sy | sy | | sy my ey],
    z as [sz | sz | | sz mz ez];
    cbn [SFcompare];
    try (destruct sx); try (destruct sy); try (destruct sz);
    try (intros H; discriminate H); try (intros _ H; discriminate H);
    try (intros; reflexivity).
  all: order_cases; cbn [CompOpp]; intros;
    try discriminate; try reflexivity; try lia.
Qed.

Lemma two_lt_three : ltb two three = true.
Proof. reflexivity. Qed.

(** Nothing lies above 3 and below 2. *)
Lemma above_three_not_below_two (a : float) :
  ltb three a = true -> ltb a two = false.
Proof.
  intros H3. destruct (ltb a two) eqn:H2; [ | reflexivity].
  pose proof (ltb_trans _ _ _ H3 H2) as H.
  pose proof (ltb_leb_false _ _ H) as H'.
  revert H'. unfold leb, SFleb.
  pose proof two_lt_three as Ht. unfold ltb, SFltb in Ht.
  destruct (SFcompare two three) as [[ | | ] | ]; discriminate.
Qed.

Lemma nan_ltb_l (x : float) : ltb nan x = false.
Proof. reflexivity. Qed.

Lemma nan_ltb_r (x : float) : ltb x nan = false.
Proof. destruct x; reflexivity. Qed.

Lemma nan_leb_l (x : float) : leb nan x = false.
Proof. reflexivity. Qed.

Lemma nan_leb_r (x : float) : leb x nan = false.
Proof. destruct x; reflexivity. Qed.

Lemma abs_nan (x : float) : is_nan (abs x) = is_nan x.
Proof. destruct x; reflexivity. Qed.

Lemma is_nan_eq (x : float) : is_nan x = true -> x = nan.
Proof. destruct x; simpl; intros H; try discriminate H; reflexivity. Qed.

(** Arithmetic on NaN and division by a zero. *)
Lemma sub_nan_r (x : float) : sub x nan = nan.
Proof. destruct x; reflexivity. Qed.

Lemma div_nan_r (x : float) : div x nan = nan.
Proof. destruct x; reflexivity. Qed.

Lemma div_zero_nan_or_inf (x z : float) :
  is_zero z = true -> is_nan (div x z) || is_inf (div x z) = true.
Proof. destruct z; simpl; try discriminate. destruct x; reflexivity. Qed.

End FloatOrder.

(* ===================================================================== *)
(** ** Facts about the classifier *)
(* ===================================================================== *)

Section Classifier.

Lemma status_below_two (a : float) :
  ltb a two = true -> status_of_abs a = NORMAL.
Proof.
  intros H. unfold status_of_abs, in_alert_band.
  rewrite (ltb_leb_false _ _ H), H. reflexivity.
Qed.

Lemma status_in_band (a : float) :
  leb two a = true -> leb a three = true -> status_of_abs a = ALERT.
Proof.
  intros H2 H3. unfold status_of_abs, in_alert_band.
  rewrite H2, H3. reflexivity.
Qed.

Lemma status_above_three (a : float) :
  ltb three a = true -> status_of_abs a = EXTREME.
Proof.
  intros H. unfold status_of_abs, in_alert_band.
  rewrite (ltb_leb_false _ _ H), andb_false_r.
  rewrite (above_three_not_below_two _ H). reflexivity.
Qed.

Lemma status_alert_iff (a : float) :
  status_of_abs a = ALERT <-> in_alert_band a = true.
Proof.
  unfold status_of_abs. destruct (in_alert_band a); [tauto | ].
  destruct (ltb a two); split; congruence.
Qed.

Lemma status_label_inj (s t : tier) :
  status_label s = status_label t -> s = t.
Proof. destruct s, t; simpl; intros H; congruence. Qed.

Lemma status_nan : status_of_abs nan = EXTREME.
Proof. reflexivity. Qed.

Lemma status_inf : status_of_abs pinf = EXTREME.
Proof. reflexivity. Qed.

End Classifier.

(* ===================================================================== *)
(** ** Binary64 values as real numbers *)
(* ===================================================================== *)

Section RealValue.

Lemma digits2_bounds (m : positive) :
  2 ^ (Zpos (digits2_pos m) - 1) <= Zpos m < 2 ^ Zpos (digits2_pos m).
Proof.
  induction m as [p IH | p IH | ]; cbn [digits2_pos].
  - rewrite Pos2Z.inj_succ.
    replace (Z.succ (Zpos (digits2_pos p)) - 1)
      with (Z.succ (Zpos (digits2_pos p) - 1)) by lia.
    rewrite !Z.pow_succ_r by lia. lia.
  - rewrite Pos2Z.inj_succ.
    replace (Z.succ (Zpos (digits2_pos p)) - 1)
      with (Z.succ (Zpos (digits2_pos p) - 1)) by lia.
    rewrite !Z.pow_succ_r by lia. lia.
  - simpl. lia.
Qed.

(** What [bounded] says of a mantissa and its exponent. *)
Lemma bounded_inv (m : positive) (e : Z) :
  bounded prec emax m e = true ->
  -1074 <= e <= 971
  /\ Zpos m < 2 ^ 53
  /\ (-1074 < e -> 2 ^ 52 <= Zpos m).
Proof.
  unfold bounded, canonical_mantissa, fexp, SpecFloat.emin, prec, emax.
  intros H. apply andb_prop in H as [Hc He].
  apply Z.eqb_eq in Hc. apply Z.leb_le in He.
  pose proof (digits2_bounds m) as [Hlo Hhi].
  set (d := Zpos (digits2_pos m)) in *.
  assert (Hd : 0 < d) by (unfold d; lia).
  assert (Hd53 : d <= 53) by lia.
  split; [lia | ]. split.
  - eapply Z.lt_le_trans; [exact Hhi | ].
    apply Z.pow_le_mono_r; lia.
  - intros Hn. assert (d = 53) as Hd' by lia.
    rewrite Hd' in Hlo. exact Hlo.
Qed.

Lemma mag_pos (m : positive) (e : Z) : -1074 <= e -> 0 < mag m e.
Proof.
  intros He. unfold mag.
  assert (0 < 2 ^ (e + 1074)) by (apply Z.pow_pos_nonneg; lia).
  lia.
Qed.

Lemma mag_lt_of_exp_lt (m1 m2 : positive) (e1 e2 : Z) :
  bounded prec emax m1 e1 = true -> bounded prec emax m2 e2 = true ->
  e1 < e2 -> mag m1 e1 < mag m2 e2.
Proof.
  intros H1 H2 Hlt.
  apply bounded_inv in H1 as (He1 & Hm1 & _).
  apply bounded_inv in H2 as (He2 & _ & Hm2).
  specialize (Hm2 ltac:(lia)).
  unfold mag.
  assert (HA : 0 < 2 ^ (e1 + 1074)) by (apply Z.pow_pos_nonneg; lia).
  assert (HB : 2 * 2 ^ (e1 + 1074) <= 2 ^ (e2 + 1074)).
  { rewrite <- Z.pow_succ_r by lia. apply Z.pow_le_mono_r; lia. }
  change (2 ^ 53) with (2 * 2 ^ 52) in Hm1.
  set (P := 2 ^ 52) in *.
  set (A := 2 ^ (e1 + 1074)) in *. set (B := 2 ^ (e2 + 1074)) in *.
  clearbody P A B.
  apply Z.lt_le_trans with (2 * P * A); [nia | ].
  apply Z.le_trans with (P * B); nia.
Qed.

Lemma mag_compare (m1 m2 : positive) (e1 e2 : Z) :
  bounded prec emax m1 e1 = true -> bounded prec emax m2 e2 = true ->
  (mag m1 e1 ?= mag m2 e2) =
  match e1 ?= e2 with
  | Eq => (m1 ?= m2)%positive
  | Lt => Lt
  | Gt => Gt
  end.
Proof.
  intros H1 H2.
  destruct (Z.compare_spec e1 e2) as [E | E | E].
  - subst e2. unfold mag.
    apply bounded_inv in H1 as (He & _).
    assert (0 < 2 ^ (e1 + 1074)) by (apply Z.pow_pos_nonneg; lia).
    set (A := 2 ^ (e1 + 1074)) in *. clearbody A.
    destruct (Pos.compare_spec m1 m2) as [M | M | M];
      [apply Z.compare_eq_iff; subst; reflexivity
      | apply Z.compare_lt_iff; nia
      | apply Z.compare_gt_iff; nia].
  - apply Z.compare_lt_iff. now apply mag_lt_of_exp_lt.
  - apply Z.compare_gt_iff. now apply mag_lt_of_exp_lt.
Qed.

(** On well-formed finite values the comparison of the code is the
    order of the real numbers they denote. *)
Lemma compare_scaled (x y : float) :
  valid x -> valid y -> is_finite x = true -> is_finite y = true ->
  SFcompare x y = Some (scaled x ?= scaled y).
Proof.
  unfold valid.
  destruct x as [sx | sx | | sx mx ex], y as [sy | sy | | sy my ey];
    cbn [valid_binary is_finite SFcompare scaled];
    intros Hx Hy Fx Fy; try discriminate; try reflexivity.
  - pose proof (bounded_inv _ _ Hy) as (He & _).
    pose proof (mag_pos my ey ltac:(lia)) as Hp. fold (mag my ey).
    destruct sy; cbn [cond_Zopp]; f_equal; symmetry;
      [apply Z.compare_gt_iff | apply Z.compare_lt_iff]; lia.
  - pose proof (bounded_inv _ _ Hx) as (He & _).
    pose proof (mag_pos mx ex ltac:(lia)) as Hp. fold (mag mx ex).
    destruct sx; cbn [cond_Zopp]; f_equal; symmetry;
      [apply Z.compare_lt_iff | apply Z.compare_gt_iff]; lia.
  - pose proof (bounded_inv _ _ Hx) as (Hex & _).
    pose proof (bounded_inv _ _ Hy) as (Hey & _).
    pose proof (mag_pos mx ex ltac:(lia)) as Hpx.
    pose proof (mag_pos my ey ltac:(lia)) as Hpy.
    fold (mag mx ex). fold (mag my ey).
    rewrite compare_cont_Eq.
    destruct sx, sy; cbn [cond_Zopp]; f_equal.
    + rewrite Z.compare_opp, (mag_compare my mx ey ex Hy Hx).
      rewrite (Z.compare_antisym ex ey), (Pos.compare_antisym mx my).
      destruct (ex ?= ey); reflexivity.
    + symmetry. apply Z.compare_lt_iff. lia.
    + symmetry. apply Z.compare_gt_iff. lia.
    + symmetry. now apply mag_compare.
Qed.

Lemma scaled_abs (x : float) : scaled (abs x) = Z.abs (scaled x).
Proof.
  destruct x as [s | s | | s m e]; try reflexivity.
  cbn [abs SFabs scaled cond_Zopp].
  assert (0 <= 2 ^ (e + 1074)) by apply Z.pow_nonneg, Z.le_0_2.
  destruct s; cbn [cond_Zopp]; lia.
Qed.

Lemma valid_abs (x : float) : valid x -> valid (abs x).
Proof. destruct x; exact (fun H => H). Qed.

Lemma finite_abs (x : float) : is_finite (abs x) = is_finite x.
Proof. destruct x; reflexivity. Qed.

Lemma den_value : Zpos (2 ^ 1074)%positive = 2 ^ 1074.
Proof. apply Pos2Z.inj_pow. Qed.

Lemma value_abs (x : float) : value (abs x) = Qabs (value x).
Proof. unfold value. rewrite scaled_abs. reflexivity. Qed.

Lemma value_of_two : (value two == 2)%Q.
Proof.
  unfold value, Qeq. cbn [Qnum Qden]. rewrite den_value.
  vm_compute. reflexivity.
Qed.

Lemma value_of_three : (value three == 3)%Q.
Proof.
  unfold value, Qeq. cbn [Qnum Qden]. rewrite den_value.
  vm_compute. reflexivity.
Qed.

Lemma value_of_zero : (value zero == 0)%Q.
Proof. reflexivity. Qed.

Lemma value_lt (x y : float) :
  (value x < value y)%Q <-> scaled x < scaled y.
Proof.
  unfold value, Qlt. cbn [Qnum Qden].
  symmetry. apply Z.mul_lt_mono_pos_r. reflexivity.
Qed.

Lemma value_le (x y : float) :
  (value x <= value y)%Q <-> scaled x <= scaled y.
Proof.
  unfold value, Qle. cbn [Qnum Qden].
  symmetry. apply Z.mul_le_mono_pos_r. reflexivity.
Qed.

Lemma ltb_value (x y : float) :
  valid x -> valid y -> is_finite x = true -> is_finite y = true ->
  (ltb x y = true <-> (value x < value y)%Q).
Proof.
  intros Vx Vy Fx Fy. rewrite value_lt. unfold ltb, SFltb.
  rewrite (compare_scaled x y Vx Vy Fx Fy).
  destruct (Z.compare_spec (scaled x) (scaled y)); split; intros;
    try discriminate; try reflexivity; lia.
Qed.

Lemma leb_value (x y : float) :
  valid x -> valid y -> is_finite x = true -> is_finite y = true ->
  (leb x y = true <-> (value x <= value y)%Q).
Proof.
  intros Vx Vy Fx Fy. rewrite value_le. unfold leb, SFleb.
  rewrite (compare_scaled x y Vx Vy Fx Fy).
  destruct (Z.compare_spec (scaled x) (scaled y)); split; intros;
    try discriminate; try reflexivity; lia.
Qed.

Lemma valid_two : valid two.
Proof. reflexivity. Qed.

Lemma valid_three : valid three.
Proof. reflexivity. Qed.

Lemma valid_zero : valid zero.
Proof. reflexivity. Qed.

End RealValue.

(* ===================================================================== *)
(** ** Facts about the rolling window *)
(* ===================================================================== *)

Section Rolling.

Variable w : nat.
Variable agg : list float -> float.

Lemma push_window_of (pre : list float) (x : float) :
  push_window w (window_of w pre) x = window_of w (pre ++ [x]).
Proof.
  unfold push_window, window_of.
  rewrite <- (drop_app_le pre [x]) by lia.
  rewrite drop_drop. f_equal.
  rewrite !length_drop, !length_app. simpl. lia.
Qed.

Lemma length_window_of (pre : list float) :
  length (window_of w pre) = Nat.min w (length pre).
Proof. unfold window_of. rewrite length_drop. lia. Qed.

Lemma length_roll (buf xs : list float) :
  length (roll w agg buf xs) = length xs.
Proof.
  revert buf. induction xs as [ | x xs IH]; intros buf; simpl;
    [reflexivity | now rewrite IH].
Qed.

Lemma roll_lookup (pre xs : list float) (i : nat) :
  (i < length xs)%nat ->
  roll w agg (window_of w pre) xs !! i
  = Some (entry w agg (pre ++ take (S i) xs)).
Proof.
  revert pre i. induction xs as [ | x xs IH]; intros pre i Hi;
    [simpl in Hi; lia | ].
  cbn [roll]. rewrite push_window_of.
  destruct i as [ | i].
  - change (take 1 (x :: xs)) with [x].
    cbn [lookup list_lookup]. f_equal. unfold entry.
    rewrite length_window_of.
    destruct (Nat.ltb_spec (Nat.min w (length (pre ++ [x]))) w),
             (Nat.ltb_spec (length (pre ++ [x])) w);
      try reflexivity; lia.
  - cbn [lookup list_lookup]. simpl in Hi.
    rewrite IH by lia.
    change (take (S (S i)) (x :: xs)) with (x :: take (S i) xs).
    now rewrite <- app_assoc.
Qed.

Lemma rolling_lookup (xs : list float) (i : nat) :
  (i < length xs)%nat ->
  rolling w agg xs !! i = Some (entry w agg (take (S i) xs)).
Proof. intros Hi. unfold rolling. exact (roll_lookup [] xs i Hi). Qed.

Lemma rolling_length (xs : list float) :
  length (rolling w agg xs) = length xs.
Proof. apply length_roll. Qed.


Lemma last_rolling (xs : list float) :
  xs <> [] -> last (rolling w agg xs) = Some (entry w agg xs).
Proof.
  intros Hne. rewrite last_lookup, rolling_length.
  assert (Hl : (0 < length xs)%nat) by (destruct xs; simpl; [easy | lia]).
  rewrite rolling_lookup by lia.
  rewrite take_ge by lia. reflexivity.
Qed.

Lemma last_rolling_nil : last (rolling w agg []) = None.
Proof. reflexivity. Qed.

End Rolling.

(* ===================================================================== *)
(** ** Facts about the analysis cell *)
(* ===================================================================== *)

Section Analysis.

Context {ops : WindowOps}.

Lemma analysis_download_raised (e : env) (x : exn) :
  download e = Raised x -> analysis e = Raised x.
Proof. intros H. unfold analysis. rewrite H. reflexivity. Qed.

Lemma analysis_empty (e : env) (rows : list row) :
  download e = Done rows -> dropna rows = [] ->
  analysis e = Raised IndexError.
Proof.
  intros Hd Hn. unfold analysis. rewrite Hd. cbn [bind].
  rewrite Hn. reflexivity.
Qed.

(** With at least one row left after [dropna], the cell runs to its end;
    the fields of the report are the values it computed on the way. *)
Lemma analysis_done (e : env) (rows : list row) :
  download e = Done rows -> dropna rows <> [] ->
  exists (a : artifacts) (p : float),
    analysis e = Done a
    /\ last (map close (dropna rows)) = Some p
    /\ current_price (data_json a) = p
    /\ ma_200 (data_json a)
       = entry window win_mean (map close (dropna rows))
    /\ std_200 (data_json a)
       = entry window win_std (map close (dropna rows))
    /\ std_away (data_json a)
       = div (sub p (ma_200 (data_json a))) (std_200 (data_json a))
    /\ status (data_json a) = status_label (classify (std_away (data_json a)))
    /\ j_direction (data_json a)
       = direction_label (direction_of (std_away (data_json a)))
    /\ alert (data_json a) = alert_of (std_away (data_json a))
    /\ h_status_color (html_content a)
       = status_color (classify (std_away (data_json a)))
    /\ h_direction (html_content a) = direction_of (std_away (data_json a))
    /\ h_abs_std (html_content a) = abs (std_away (data_json a)).
Proof.
  intros Hd Hn. unfold analysis. rewrite Hd. cbn [bind].
  set (closes := dropna rows) in *.
  assert (Hv : map close closes <> []).
  { intros E. apply Hn. now apply fmap_nil_inv in E. }
  destruct (last (map close closes)) as [p | ] eqn:Hp;
    [ | now apply last_None in Hp].
  unfold iloc_last at 1. rewrite Hp. cbn [bind].
  unfold iloc_last. rewrite !last_rolling by exact Hv. cbn [bind].
  eexists _, p. split; [reflexivity | ]. cbn.
  repeat split; reflexivity.
Qed.

Lemma analysis_inv (e : env) (a : artifacts) :
  analysis e = Done a ->
  exists rows, download e = Done rows /\ dropna rows <> [].
Proof.
  intros H. destruct (download e) as [rows | x] eqn:Hd.
  - exists rows. split; [reflexivity | ]. intros Hn.
    rewrite (analysis_empty e rows Hd Hn) in H. discriminate.
  - rewrite (analysis_download_raised e x Hd) in H. discriminate.
Qed.

End Analysis.

Section Reports.

Context {ops : WindowOps}.

Lemma classify_nonfinite (x : float) :
  is_nan x || is_inf x = true ->
  classify x = EXTREME /\ alert_of x = false.
Proof. destruct x as [ | [ | ] | | ]; simpl; intros H; try discriminate H;
       split; reflexivity. Qed.

Lemma direction_nan (x : float) : is_nan x = true -> direction_of x = below.
Proof. intros H. apply is_nan_eq in H. subst x. reflexivity. Qed.

Lemma entry_short (agg : list float -> float) (xs : list float) :
  (length xs < window)%nat -> entry window agg xs = nan.
Proof.
  intros H. unfold entry.
  destruct (Nat.ltb_spec (length xs) window); [reflexivity | lia].
Qed.

Lemma dropna_all_nan (rows : list row) :
  Forall (fun r => is_nan (close r) = true) rows -> dropna rows = [].
Proof.
  induction 1 as [ | r rows Hr _ IH]; [reflexivity | ].
  unfold dropna in *. rewrite filter_cons, IH.
  destruct (decide (is_nan (close r) = false)) as [E | E];
    [rewrite Hr in E; discriminate E | reflexivity].
Qed.

Lemma written_done (a : artifacts) :
  map fst (written (Done a)) = [dashboard_path; summary_path].
Proof. reflexivity. Qed.

Lemma run_done (e : env) (a : artifacts) :
  analysis e = Done a ->
  run e = (0, [(dashboard_path, Html (html_content a));
               (summary_path, Json (data_json a))]).
Proof. intros H. unfold run. rewrite H. reflexivity. Qed.

Lemma run_raised (e : env) (x : exn) :
  analysis e = Raised x -> run e = (1, []).
Proof. intros H. unfold run. rewrite H. reflexivity. Qed.

End Reports.

(* ===================================================================== *)
(** ** Facts about the deploy job *)
(* ===================================================================== *)

Import Workflow.

Section Job.

Lemma glob_lookup (ext : string) (d : gmap string content) (name : string) :
  glob ext d !! name = if has_ext ext name then d !! name else None.
Proof.
  unfold glob. destruct (has_ext ext name) eqn:E.
  - destruct (d !! name) as [c | ] eqn:L.
    + apply map_lookup_filter_Some. split; [exact L | exact E].
    + apply map_lookup_filter_None. left. exact L.
  - apply map_lookup_filter_None. right. intros c _. simpl.
    rewrite E. discriminate.
Qed.

Lemma cp_glob_lookup (ext : string) (src dst : gmap string content)
    (name : string) :
  cp_glob ext src dst !! name
  = if has_ext ext name
    then match src !! name with Some c => Some c | None => dst !! name end
    else dst !! name.
Proof.
  unfold cp_glob. rewrite lookup_union, glob_lookup.
  destruct (has_ext ext name); [ | now rewrite (left_id None _)].
  destruct (src !! name), (dst !! name); reflexivity.
Qed.

(** The run step succeeds whatever the monitor returned. *)
Lemma run_analysis_status (m : monitor_run) (r : runner) :
  fst (run_analysis m r) = 0.
Proof.
  unfold run_analysis, or_else, echo. cbn [fst].
  destruct (m_status m =? 0); reflexivity.
Qed.

(** The deployment directory after the copy step: the dashboard of the
    working directory, when there is one, is also the index page. *)
Lemma create_deploy_dir_index (date : string) (r : runner) :
  deploy (snd (create_deploy_dir date r)) !! index_path
  = Some (match workdir r !! dashboard_path with
          | Some page => page
          | None => fallback_index date
          end).
Proof.
  unfold create_deploy_dir. cbn [snd deploy].
  rewrite !cp_glob_lookup.
  change (has_ext ".log" dashboard_path) with false.
  change (has_ext ".json" dashboard_path) with false.
  change (has_ext ".png" dashboard_path) with false.
  change (has_ext ".html" dashboard_path) with true.
  cbv iota. rewrite lookup_empty.
  destruct (workdir r !! dashboard_path) as [page | ];
    apply lookup_insert_eq.
Qed.

Lemma job_unfold (m : monitor_run) (date : string)
    (checkout gh_pages : gmap string content) :
  job m date checkout gh_pages
  = (0, snd (deploy_pages (snd (create_deploy_dir date
            (snd (run_analysis m
               {| workdir := checkout; deploy := ∅;
                  branch := gh_pages; pushed := false |})))))).
Proof.
  unfold job. cbn [run_steps].
  destruct (run_analysis m _) as [st r1] eqn:E1.
  pose proof (run_analysis_status m
    {| workdir := checkout; deploy := ∅;
       branch := gh_pages; pushed := false |}) as Hst.
  rewrite E1 in Hst. cbn [fst] in Hst. subst st.
  cbn [snd]. reflexivity.
Qed.

End Job.

(* ===================================================================== *)
(** ** The claims of the specification *)
(* ===================================================================== *)

(** C3.  The classifier applied to the absolute value of a sigma deviation
    returns NORMAL below 2, ALERT from 2 to 3 with both bounds included,
    and EXTREME above 3: first with the deviation read as the real number
    it denotes, then with the comparisons of the code on any binary64
    value.  The five sample points 2.0, 1.999, 3.0, 3.0001 and -2.5
    evaluate to ALERT, NORMAL, ALERT, EXTREME and ALERT. *)
Theorem classify_thresholds :
  (forall x : float, valid x -> is_finite x = true ->
     ((Qabs (value x) < 2)%Q -> classify x = NORMAL)
     /\ ((2 <= Qabs (value x))%Q -> (Qabs (value x) <= 3)%Q ->
         classify x = ALERT)
     /\ ((3 < Qabs (value x))%Q -> classify x = EXTREME))
  /\ (forall x : float,
        (ltb (abs x) two = true -> classify x = NORMAL)
        /\ (leb two (abs x) = true -> leb (abs x) three = true ->
            classify x = ALERT)
        /\ (ltb three (abs x) = true -> classify x = EXTREME))
  /\ classify (of_Z 2) = ALERT
  /\ classify (lit 1999 1000) = NORMAL
  /\ classify (of_Z 3) = ALERT
  /\ classify (lit 30001 10000) = EXTREME
  /\ classify (opp (lit 5 2)) = ALERT.
Proof.
  split; [ | split; [ | repeat split; reflexivity]].
  2: { intros x. split; [apply status_below_two | ].
       split; [apply status_in_band | apply status_above_three]. }
  intros x Vx Fx.
  pose proof (valid_abs x Vx) as Va.
  pose proof (finite_abs x) as Fa. rewrite Fx in Fa.
  rewrite <- value_abs. unfold classify.
  repeat split.
  - intros H. apply status_below_two.
    apply (ltb_value _ _ Va valid_two Fa eq_refl).
    now rewrite value_of_two.
  - intros H2 H3. apply status_in_band.
    + apply (leb_value _ _ valid_two Va eq_refl Fa).
      now rewrite value_of_two.
    + apply (leb_value _ _ Va valid_three Fa eq_refl).
      now rewrite value_of_three.
  - intros H. apply status_above_three.
    apply (ltb_value _ _ valid_three Va eq_refl Fa).
    now rewrite value_of_three.
Qed.

Lemma classify_thresholds_witness :
  valid (lit 3 2) /\ is_finite (lit 3 2) = true
  /\ (Qabs (value (lit 3 2)) < 2)%Q
  /\ classify (lit 3 2) = NORMAL.
Proof.
  assert (V : valid (lit 3 2)) by reflexivity.
  assert (F : is_finite (lit 3 2) = true) by reflexivity.
  assert (H : (Qabs (value (lit 3 2)) < 2)%Q) by (vm_compute; reflexivity).
  split; [exact V | ]. split; [exact F | ]. split; [exact H | ].
  destruct classify_thresholds as [T _].
  destruct (T (lit 3 2) V F) as [T1 _]. exact (T1 H).
Defined.

(** C4.  Round trip: in every report the cell produces, the classifier
    applied to the stored [std_away] gives back the stored [status], and
    the alert test applied to it gives back the stored [alert]. *)
Theorem json_roundtrip {ops : WindowOps} (e : env) (a : artifacts) :
  analysis e = Done a ->
  status (data_json a) = status_label (classify (std_away (data_json a)))
  /\ alert (data_json a) = alert_of (std_away (data_json a)).
Proof.
  intros H. destruct (analysis_inv e a H) as (rows & Hd & Hn).
  destruct (analysis_done e rows Hd Hn)
    as (a' & p & Ha & _ & _ & _ & _ & _ & Hs & _ & Hal & _).
  rewrite H in Ha. injection Ha as <-. split; assumption.
Qed.

Lemma json_roundtrip_witness :
  exists a : artifacts,
    @analysis naive_ops (env_of (swing_rows 199 1025)) = Done a
    /\ status (data_json a) = status_label ALERT
    /\ status (data_json a) = status_label (classify (std_away (data_json a)))
    /\ alert (data_json a) = alert_of (std_away (data_json a)).
Proof.
  eexists. split; [vm_compute; reflexivity | ].
  split; [vm_compute; reflexivity | ].
  apply (@json_roundtrip naive_ops (env_of (swing_rows 199 1025))).
  vm_compute; reflexivity.
Defined.

(** C5.  In every report the cell produces, [alert] is true exactly when
    [status] is the ALERT tier; it is false for NORMAL and for EXTREME. *)
Theorem alert_iff_status_alert {ops : WindowOps} (e : env) (a : artifacts) :
  analysis e = Done a ->
  (alert (data_json a) = true <-> status (data_json a) = status_label ALERT)
  /\ (status (data_json a) = status_label NORMAL -> alert (data_json a) = false)
  /\ (status (data_json a) = status_label EXTREME -> alert (data_json a) = false).
Proof.
  intros H. destruct (analysis_inv e a H) as (rows & Hd & Hn).
  destruct (analysis_done e rows Hd Hn)
    as (a' & p & Ha & _ & _ & _ & _ & _ & Hs & _ & Hal & _).
  rewrite H in Ha. injection Ha as <-.
  rewrite Hs, Hal. unfold alert_of, classify.
  set (s := abs (std_away (data_json a))).
  repeat split.
  - intros Hb. f_equal. now apply status_alert_iff.
  - intros Hl. apply status_alert_iff. now apply status_label_inj.
  - intros Hl. apply status_label_inj in Hl.
    destruct (in_alert_band s) eqn:Hb; [ | reflexivity].
    apply status_alert_iff in Hb. rewrite Hb in Hl. discriminate Hl.
  - intros Hl. apply status_label_inj in Hl.
    destruct (in_alert_band s) eqn:Hb; [ | reflexivity].
    apply status_alert_iff in Hb. rewrite Hb in Hl. discriminate Hl.
Qed.

Lemma alert_iff_status_alert_witness :
  exists a : artifacts,
    @analysis naive_ops (env_of (swing_rows 199 1025)) = Done a
    /\ alert (data_json a) = true
    /\ (alert (data_json a) = true
        <-> status (data_json a) = status_label ALERT).
Proof.
  eexists. split; [vm_compute; reflexivity | ].
  split; [vm_compute; reflexivity | ].
  apply (@alert_iff_status_alert naive_ops (env_of (swing_rows 199 1025))).
  vm_compute; reflexivity.
Defined.

(** C6.  The direction is "above" exactly when the signed sigma deviation
    is strictly greater than 0, by the comparison of the code and, on
    finite values, by the order of the real numbers; a deviation of
    exactly 0, of either sign, gives "below". *)
Theorem direction_above_iff_positive :
  (forall x : float, direction_of x = above <-> ltb zero x = true)
  /\ (forall x : float, valid x -> is_finite x = true ->
        (direction_of x = above <-> (0 < value x)%Q))
  /\ (forall s : bool, direction_of (S754_zero s) = below)
  /\ (forall x : float,
        direction_label (direction_of x) = "above" <-> ltb zero x = true).
Proof.
  assert (H1 : forall x, direction_of x = above <-> ltb zero x = true).
  { intros x. unfold direction_of.
    destruct (ltb zero x); split; intros H; try reflexivity; discriminate. }
  split; [exact H1 | ]. split; [ | split].
  - intros x Vx Fx. rewrite H1.
    rewrite (ltb_value zero x valid_zero Vx eq_refl Fx).
    now rewrite value_of_zero.
  - intros s. destruct s; reflexivity.
  - intros x. rewrite <- H1.
    destruct (direction_of x); split; intros H; try reflexivity;
      discriminate.
Qed.

Lemma direction_above_iff_positive_witness :
  valid (lit 5 2) /\ is_finite (lit 5 2) = true
  /\ (0 < value (lit 5 2))%Q
  /\ direction_of (lit 5 2) = above.
Proof.
  assert (V : valid (lit 5 2)) by reflexivity.
  assert (F : is_finite (lit 5 2) = true) by reflexivity.
  assert (H : (0 < value (lit 5 2))%Q) by (vm_compute; reflexivity).
  split; [exact V | ]. split; [exact F | ]. split; [exact H | ].
  destruct direction_above_iff_positive as (_ & T & _).
  exact (proj2 (T (lit 5 2) V F) H).
Defined.



(** C10.  The classifier has a result on every binary64 input.  On NaN both
    chained comparisons are false, so the status is EXTREME, the direction
    "below" and the alert false; and the cell does not fail on it: with at
    least one valid sample it always builds both report values, with these
    three fields whenever the sigma deviation is NaN, which is the case
    with fewer than 200 samples and when a zero deviation divides a zero
    difference. *)
Theorem nan_classified_extreme :
  in_alert_band (abs nan) = false
  /\ ltb (abs nan) two = false
  /\ classify nan = EXTREME
  /\ direction_of nan = below
  /\ alert_of nan = false
  /\ (forall (ops : WindowOps) (e : env) (rows : list row),
        download e = Done rows -> dropna rows <> [] ->
        exists a : artifacts,
          analysis e = Done a
          /\ run e = (0, [(dashboard_path, Html (html_content a));
                          (summary_path, Json (data_json a))])
          /\ (is_nan (std_away (data_json a)) = true ->
                status (data_json a) = status_label EXTREME
                /\ j_direction (data_json a) = "below"
                /\ alert (data_json a) = false)
          /\ ((length (dropna rows) < 200)%nat ->
                is_nan (std_away (data_json a)) = true)
          /\ (is_zero (std_200 (data_json a)) = true ->
              is_zero (sub (current_price (data_json a))
                           (ma_200 (data_json a))) = true ->
                is_nan (std_away (data_json a)) = true)).
Proof.
  repeat (split; [reflexivity | ]).
  intros ops e rows Hd Hn.
  destruct (analysis_done e rows Hd Hn)
    as (a & p & Ha & _ & Hp & Hm & Hs & Hsig & Hst & Hdir & Hal & _).
  exists a. split; [exact Ha | ]. split; [now apply run_done | ].
  split; [ | split].
  - intros Hnan. rewrite Hst, Hdir, Hal.
    apply is_nan_eq in Hnan. rewrite Hnan. repeat split; reflexivity.
  - intros Hlen. rewrite Hsig, Hs.
    rewrite entry_short by (rewrite length_map; exact Hlen).
    rewrite div_nan_r. reflexivity.
  - intros Hz Hz'. rewrite Hsig. rewrite Hp in Hz'.
    destruct (std_200 (data_json a)); try discriminate Hz.
    destruct (sub p (ma_200 (data_json a))); try discriminate Hz'.
    reflexivity.
Qed.

Lemma nan_classified_extreme_witness :
  exists a : artifacts,
    @analysis naive_ops (env_of (flat_rows 3)) = Done a
    /\ is_nan (std_away (data_json a)) = true
    /\ status (data_json a) = status_label EXTREME
    /\ j_direction (data_json a) = "below"
    /\ alert (data_json a) = false.
Proof.
  destruct nan_classified_extreme as (_ & _ & _ & _ & _ & T).
  destruct (T naive_ops (env_of (flat_rows 3)) (flat_rows 3) eq_refl
              ltac:(discriminate))
    as (a & Ha & _ & Hf & Hshort & _).
  exists a. split; [exact Ha | ].
  assert (Hn : is_nan (std_away (data_json a)) = true)
    by (apply Hshort; vm_compute; lia).
  split; [exact Hn | exact (Hf Hn)].
Defined.

(** C1, as stated, fails: one valid sample is fewer than 200, and the cell
    runs to its end and both files are written. *)
Lemma short_history_counterexample :
  (length (dropna (flat_rows 1)) < 200)%nat
  /\ succeeded (@analysis naive_ops (env_of (flat_rows 1))) = true
  /\ fst (@run naive_ops (env_of (flat_rows 1))) = 0
  /\ map fst (snd (@run naive_ops (env_of (flat_rows 1))))
     = [dashboard_path; summary_path].
Proof. vm_compute. repeat split; reflexivity || lia. Qed.

(** C1, amended.  With at least one and fewer than 200 valid samples the
    cell does not fail: the rolling mean and standard deviation at the
    latest date are NaN, so is the sigma deviation, and both files are
    written with status EXTREME, direction "below" and alert false.  With
    no valid sample at all the run fails (IndexError on the last price)
    and writes no file. *)
Theorem short_history_report {ops : WindowOps} (e : env) (rows : list row) :
  download e = Done rows ->
  (length (dropna rows) < 200)%nat ->
  (dropna rows <> [] ->
     exists a : artifacts,
       analysis e = Done a
       /\ is_nan (ma_200 (data_json a)) = true
       /\ is_nan (std_200 (data_json a)) = true
       /\ is_nan (std_away (data_json a)) = true
       /\ status (data_json a) = status_label EXTREME
       /\ j_direction (data_json a) = "below"
       /\ alert (data_json a) = false
       /\ run e = (0, [(dashboard_path, Html (html_content a));
                       (summary_path, Json (data_json a))]))
  /\ (dropna rows = [] ->
        analysis e = Raised IndexError /\ run e = (1, [])).
Proof.
  intros Hd Hlen. split.
  - intros Hn.
    destruct (analysis_done e rows Hd Hn)
      as (a & p & Ha & _ & _ & Hm & Hs & Hsig & Hst & Hdir & Hal & _).
    assert (Hl : (length (map close (dropna rows)) < window)%nat)
      by (rewrite length_map; exact Hlen).
    rewrite (entry_short win_mean _ Hl) in Hm.
    rewrite (entry_short win_std _ Hl) in Hs.
    assert (Hnan : std_away (data_json a) = nan).
    { rewrite Hsig, Hs. apply div_nan_r. }
    exists a. split; [exact Ha | ].
    rewrite Hst, Hdir, Hal, Hm, Hs, Hnan.
    repeat (split; [reflexivity | ]). now apply run_done.
  - intros Hn. pose proof (analysis_empty e rows Hd Hn) as Ha.
    split; [exact Ha | now apply run_raised with IndexError].
Qed.

Lemma short_history_report_witness :
  exists a : artifacts,
    @analysis naive_ops (env_of (flat_rows 1)) = Done a
    /\ is_nan (std_away (data_json a)) = true
    /\ status (data_json a) = status_label EXTREME.
Proof.
  assert (Hlen : (length (dropna (flat_rows 1)) < 200)%nat)
    by (vm_compute; lia).
  destruct (@short_history_report naive_ops (env_of (flat_rows 1))
              (flat_rows 1) eq_refl Hlen) as [T _].
  destruct (T ltac:(discriminate))
    as (a & Ha & _ & _ & Hn & Hs & _).
  exists a. split; [exact Ha | ]. split; [exact Hn | exact Hs].
Defined.

(** C2, as stated, fails: on 250 days at one price the reference
    aggregates give a standard deviation of zero at the latest date, and
    the cell runs to its end with a NaN sigma deviation in the report. *)
Lemma zero_std_counterexample :
  @current_std naive_ops (flat_rows 250) = Done (S754_zero false)
  /\ exists a : artifacts,
       @analysis naive_ops (env_of (flat_rows 250)) = Done a
       /\ is_zero (std_200 (data_json a)) = true
       /\ is_nan (std_away (data_json a)) = true
       /\ fst (@run naive_ops (env_of (flat_rows 250))) = 0
       /\ map fst (snd (@run naive_ops (env_of (flat_rows 250))))
          = [dashboard_path; summary_path].
Proof.
  split; [vm_compute; reflexivity | ].
  eexists. split; [vm_compute; reflexivity | ].
  vm_compute. repeat split; reflexivity.
Qed.

(** C2, amended.  When the standard deviation at the latest date is zero
    the cell does not fail: the division yields NaN or an infinity, never
    a finite number, and both files are written with status EXTREME and
    alert false. *)
Theorem zero_std_report {ops : WindowOps} (e : env) (rows : list row)
    (s : float) :
  download e = Done rows ->
  current_std rows = Done s ->
  is_zero s = true ->
  exists a : artifacts,
    analysis e = Done a
    /\ std_200 (data_json a) = s
    /\ is_nan (std_away (data_json a)) || is_inf (std_away (data_json a)) = true
    /\ is_finite (std_away (data_json a)) = false
    /\ status (data_json a) = status_label EXTREME
    /\ alert (data_json a) = false
    /\ run e = (0, [(dashboard_path, Html (html_content a));
                    (summary_path, Json (data_json a))]).
Proof.
  intros Hd Hs Hz.
  assert (Hn : dropna rows <> []).
  { intros E. unfold current_std in Hs. rewrite E in Hs. discriminate Hs. }
  destruct (analysis_done e rows Hd Hn)
    as (a & p & Ha & _ & _ & _ & Hsd & Hsig & Hst & _ & Hal & _).
  assert (Hs' : std_200 (data_json a) = s).
  { unfold current_std, iloc_last in Hs.
    rewrite last_rolling in Hs
      by (intros E; apply Hn; now apply fmap_nil_inv in E).
    injection Hs as <-. exact Hsd. }
  assert (Hnf : is_nan (std_away (data_json a))
                || is_inf (std_away (data_json a)) = true).
  { rewrite Hsig, Hs'. now apply div_zero_nan_or_inf. }
  destruct (classify_nonfinite _ Hnf) as [Hc Halert].
  exists a. split; [exact Ha | ]. split; [exact Hs' | ].
  split; [exact Hnf | ]. split.
  { destruct (std_away (data_json a)); simpl in Hnf |- *;
      try reflexivity; discriminate Hnf. }
  rewrite Hst, Hal, Hc, Halert.
  repeat (split; [reflexivity | ]). now apply run_done.
Qed.

Lemma zero_std_report_witness :
  exists a : artifacts,
    @analysis naive_ops (env_of (flat_rows 250)) = Done a
    /\ is_zero (std_200 (data_json a)) = true
    /\ is_finite (std_away (data_json a)) = false
    /\ status (data_json a) = status_label EXTREME.
Proof.
  assert (Hs : @current_std naive_ops (flat_rows 250) = Done (S754_zero false))
    by (vm_compute; reflexivity).
  destruct (@zero_std_report naive_ops (env_of (flat_rows 250))
              (flat_rows 250) (S754_zero false) eq_refl Hs eq_refl)
    as (a & Ha & Hsd & _ & Hf & Hst & _).
  exists a. split; [exact Ha | ].
  split; [rewrite Hsd; reflexivity | ]. split; [exact Hf | exact Hst].
Defined.

(** C8.  When the remote query raises, or returns no row, or only rows
    whose price is null, the run fails: an exception is left uncaught, no
    file is written and the exit status is not zero. *)
Theorem no_data_is_fatal {ops : WindowOps} (e : env) :
  (exists x : exn, download e = Raised x)
  \/ (exists rows : list row,
        download e = Done rows
        /\ (rows = [] \/ Forall (fun r => is_nan (close r) = true) rows)) ->
  exists x : exn,
    analysis e = Raised x
    /\ succeeded (analysis e) = false
    /\ written (analysis e) = []
    /\ snd (run e) = []
    /\ fst (run e) <> 0.
Proof.
  intros H.
  assert (Hx : exists x, analysis e = Raised x).
  { destruct H as [[x Hd] | (rows & Hd & Hr)].
    - exists x. now apply analysis_download_raised.
    - exists IndexError. apply (analysis_empty e rows Hd).
      destruct Hr as [-> | Hall]; [reflexivity | now apply dropna_all_nan]. }
  destruct Hx as [x Hx]. exists x. split; [exact Hx | ].
  rewrite (run_raised e x Hx), Hx. repeat split; try reflexivity.
  discriminate.
Qed.

Lemma no_data_is_fatal_witness :
  exists x : exn,
    @analysis naive_ops (env_of [ {| day := "2025-01-02"; close := nan |} ])
    = Raised x
    /\ fst (@run naive_ops
              (env_of [ {| day := "2025-01-02"; close := nan |} ])) <> 0.
Proof.
  destruct (@no_data_is_fatal naive_ops
              (env_of [ {| day := "2025-01-02"; close := nan |} ]))
    as (x & Hx & _ & _ & _ & Hs).
  - right. eexists. split; [reflexivity | ]. right.
    constructor; [reflexivity | constructor].
  - exists x. split; [exact Hx | exact Hs].
Defined.


(** The same with the analysis above as the monitor: on an empty download
    it exits with status 1 and writes nothing, and a dashboard that was
    already in the checkout is deployed as the index page. *)
Lemma failed_analysis_deploys_checkout :
  let m := @monitor_of naive_ops (env_of []) in
  let old : gmap string content :=
    {[ dashboard_path := Text "<html>dashboard of an earlier run</html>" ]} in
  let r := job m "Mon Jun 30 14:30:00 UTC 2025" old ∅ in
  m_status m = 1
  /\ m_files m = []
  /\ fst r = 0
  /\ pushed (snd r) = true
  /\ branch (snd r) !! index_path
     = Some (Text "<html>dashboard of an earlier run</html>").
Proof.
  vm_compute. repeat split; reflexivity.
Qed.

(** And with nothing in the checkout the same failed run gets the fallback
    page deployed: the job falls back, and still pushes. *)
Lemma failed_analysis_deploys_fallback :
  let m := @monitor_of naive_ops (env_of []) in
  let r := job m "Mon Jun 30 14:30:00 UTC 2025" ∅ ∅ in
  m_status m = 1
  /\ fst r = 0
  /\ pushed (snd r) = true
  /\ branch (snd r) !! index_path
     = Some (fallback_index "Mon Jun 30 14:30:00 UTC 2025").
Proof.
  vm_compute. repeat split; reflexivity.
Qed.


(* ===================================================================== *)
(** ** Further properties: the chart, the inputs that matter, the tiers *)
(* ===================================================================== *)

Section Chart.

Context {ops : WindowOps}.

Lemma length_tail {A : Type} (n : nat) (xs : list A) :
  length (tail n xs) = Nat.min n (length xs).
Proof. unfold tail. rewrite length_drop. lia. Qed.

Lemma tail_lookup {A : Type} (n : nat) (xs : list A) (k : nat) :
  tail n xs !! k = xs !! (length xs - Nat.min n (length xs) + k)%nat.
Proof.
  unfold tail. rewrite lookup_drop. f_equal. lia.
Qed.

Lemma tail_map {A B : Type} (f : A -> B) (n : nat) (xs : list A) :
  tail n (map f xs) = map f (tail n xs).
Proof. unfold tail. rewrite length_map. symmetry. apply fmap_drop. Qed.

Lemma last_tail {A : Type} (n : nat) (xs : list A) :
  (0 < n)%nat -> last (tail n xs) = last xs.
Proof.
  intros Hn. rewrite !last_lookup, length_tail, tail_lookup.
  destruct xs as [ | x xs]; [reflexivity | ].
  f_equal. simpl length. lia.
Qed.

(** The report of a run that reaches its end, written out. *)
Lemma analysis_explicit (e : env) (rows : list row) :
  download e = Done rows -> dropna rows <> [] ->
  exists p : float,
    last (map close (dropna rows)) = Some p
    /\ analysis e = Done
        (let closes := dropna rows in
         let values := map close closes in
         let m := entry window win_mean values in
         let s := entry window win_std values in
         let sigma := div (sub p m) s in
         {| html_content := {|
              h_status_color := status_color (classify sigma);
              h_last_updated := now_html e;
              h_current_price := p;
              h_current_ma := m;
              h_direction := direction_of sigma;
              h_abs_std := abs sigma;
              h_labels := map day (tail 30 closes);
              h_prices := map close (tail 30 closes);
              h_mas := tail 30 (rolling window win_mean values) |};
            data_json := {|
              timestamp := now_json e;
              current_price := p;
              ma_200 := m;
              std_200 := s;
              std_away := sigma;
              status := status_label (classify sigma);
              j_direction := direction_label (direction_of sigma);
              alert := alert_of sigma |} |}).
Proof.
  intros Hd Hn. unfold analysis. rewrite Hd. cbn [bind].
  set (closes := dropna rows) in *.
  assert (Hv : map close closes <> []).
  { intros E. apply Hn. now apply fmap_nil_inv in E. }
  destruct (last (map close closes)) as [p | ] eqn:Hp;
    [ | now apply last_None in Hp].
  unfold iloc_last at 1. rewrite Hp. cbn [bind].
  unfold iloc_last. rewrite !last_rolling by exact Hv. cbn [bind].
  exists p. split; reflexivity.
Qed.

Lemma dropna_not_nan (rows : list row) (r : row) :
  r ∈ dropna rows -> is_nan (close r) = false.
Proof. unfold dropna. intros H. now apply list_elem_of_filter in H. Qed.

Lemma dropna_app (l1 l2 : list row) :
  dropna (l1 ++ l2) = dropna l1 ++ dropna l2.
Proof. unfold dropna. apply filter_app. Qed.

Lemma dropna_null (r : row) (l : list row) :
  is_nan (close r) = true -> dropna (r :: l) = dropna l.
Proof.
  intros H. unfold dropna. rewrite filter_cons.
  destruct (decide (is_nan (close r) = false)) as [E | E];
    [rewrite H in E; discriminate E | reflexivity].
Qed.

Lemma analysis_same_closes (e1 e2 : env) (r1 r2 : list row) :
  download e1 = Done r1 -> download e2 = Done r2 ->
  dropna r1 = dropna r2 ->
  now_html e1 = now_html e2 -> now_json e1 = now_json e2 ->
  analysis e1 = analysis e2.
Proof.
  intros H1 H2 Hd Hh Hj. unfold analysis.
  rewrite H1, H2. cbn [bind]. rewrite Hd, Hh, Hj. reflexivity.
Qed.

(** The chart series of a report, as the cell builds them. *)
Lemma chart_series (e : env) (rows : list row) (a : artifacts) :
  download e = Done rows ->
  analysis e = Done a ->
  dropna rows <> []
  /\ h_labels (html_content a) = map day (tail 30 (dropna rows))
  /\ h_prices (html_content a) = map close (tail 30 (dropna rows))
  /\ h_mas (html_content a)
     = tail 30 (rolling window win_mean (map close (dropna rows)))
  /\ last (map close (dropna rows)) = Some (current_price (data_json a))
  /\ ma_200 (data_json a) = entry window win_mean (map close (dropna rows)).
Proof.
  intros Hd Ha.
  assert (Hn : dropna rows <> []).
  { intros E. rewrite (analysis_empty e rows Hd E) in Ha. discriminate Ha. }
  destruct (analysis_explicit e rows Hd Hn) as (p & Hp & Hex).
  rewrite Ha in Hex. injection Hex as ->. cbn -[tail window].
  repeat split; try reflexivity; assumption.
Qed.

End Chart.

(** X1.  The three chart series of a report have the same length, the
    smaller of 30 and the number of valid samples, and entry [k] of each
    is the day, the price and the rolling mean of one and the same row;
    the last point of the chart is the current price and the current
    moving average of the summary. *)
Theorem chart_series_aligned {ops : WindowOps} (e : env) (rows : list row)
    (a : artifacts) :
  download e = Done rows ->
  analysis e = Done a ->
  let closes := dropna rows in
  let n := length closes in
  let c := Nat.min 30 n in
  let h := html_content a in
  length (h_labels h) = c
  /\ length (h_prices h) = c
  /\ length (h_mas h) = c
  /\ (forall k : nat, (k < c)%nat ->
        h_labels h !! k = day <$> closes !! (n - c + k)%nat
        /\ h_prices h !! k = close <$> closes !! (n - c + k)%nat
        /\ h_mas h !! k
           = rolling window win_mean (map close closes) !! (n - c + k)%nat)
  /\ last (h_prices h) = Some (current_price (data_json a))
  /\ last (h_mas h) = Some (ma_200 (data_json a)).
Proof.
  intros Hd Ha closes n c h.
  destruct (chart_series e rows a Hd Ha) as (Hn & Hl & Hp & Hm & Hcur & Hma).
  subst h. rewrite Hl, Hp, Hm. fold closes in Hn, Hcur, Hma |- *.
  assert (Hv : map close closes <> []).
  { intros E. apply Hn. now apply fmap_nil_inv in E. }
  rewrite !length_map, !length_tail, rolling_length, length_map.
  fold n c.
  split; [reflexivity | ]. split; [reflexivity | ]. split; [reflexivity | ].
  split.
  - intros k Hk. rewrite !list_lookup_fmap, !tail_lookup.
    rewrite rolling_length, length_map. fold n c.
    repeat split; reflexivity.
  - split.
    + rewrite <- tail_map, last_tail by lia. exact Hcur.
    + rewrite last_tail by lia. rewrite Hma. apply last_rolling. exact Hv.
Qed.

Lemma chart_series_aligned_witness :
  exists a : artifacts,
    @analysis naive_ops (env_of (swing_rows 199 1025)) = Done a
    /\ length (h_labels (html_content a)) = 30%nat
    /\ length (h_mas (html_content a)) = 30%nat
    /\ last (h_prices (html_content a)) = Some (current_price (data_json a)).
Proof.
  eexists. split; [vm_compute; reflexivity | ].
  destruct (@chart_series_aligned naive_ops (env_of (swing_rows 199 1025))
              (swing_rows 199 1025) _ eq_refl ltac:(vm_compute; reflexivity))
    as (H1 & _ & H3 & _ & H5 & _).
  split; [exact H1 | ]. split; [exact H3 | exact H5].
Defined.



(** X3.  Whatever the statistics are, the prices of a report are never
    NaN: the current price of the summary and of the page, and every
    price of the chart, are values that [dropna] kept. *)
Theorem report_prices_not_nan {ops : WindowOps} (e : env) (a : artifacts) :
  analysis e = Done a ->
  is_nan (current_price (data_json a)) = false
  /\ is_nan (h_current_price (html_content a)) = false
  /\ Forall (fun p => is_nan p = false) (h_prices (html_content a)).
Proof.
  intros Ha. destruct (analysis_inv e a Ha) as (rows & Hd & Hn).
  destruct (analysis_explicit e rows Hd Hn) as (p & Hp & Hex).
  rewrite Ha in Hex. injection Hex as ->. cbn -[tail window].
  assert (Hall : Forall (fun p => is_nan p = false) (map close (dropna rows))).
  { apply Forall_fmap, Forall_forall. intros r Hr.
    exact (dropna_not_nan rows r Hr). }
  assert (Hpn : is_nan p = false).
  { rewrite Forall_forall in Hall. apply Hall.
    rewrite last_lookup in Hp. now apply list_elem_of_lookup_2 in Hp. }
  split; [exact Hpn | ]. split; [exact Hpn | ].
  rewrite <- tail_map. unfold tail. now apply Forall_drop.
Qed.

Lemma report_prices_not_nan_witness :
  exists a : artifacts,
    @analysis naive_ops (env_of (flat_rows 3)) = Done a
    /\ is_nan (current_price (data_json a)) = false
    /\ is_nan (ma_200 (data_json a)) = true.
Proof.
  eexists. split; [vm_compute; reflexivity | ].
  split; [ | vm_compute; reflexivity].
  apply (@report_prices_not_nan naive_ops (env_of (flat_rows 3))).
  vm_compute; reflexivity.
Defined.

Lemma status_color_inj (s t : tier) : status_color s = status_color t -> s = t.
Proof. destruct s, t; simpl; intros H; congruence. Qed.

Lemma abs_not_negative (x : float) : ltb (abs x) zero = false.
Proof. destruct x as [s | s | | s m e]; reflexivity. Qed.

(** X4.  The page and the summary of one run never disagree: they carry
    the same price, the same moving average and the same direction, the
    page shows the absolute value of the summary's sigma deviation (never
    a negative number), and the colour of its banner is the colour of the
    summary's status, each tier having a colour of its own. *)
Theorem page_agrees_with_summary {ops : WindowOps} (e : env) (a : artifacts) :
  analysis e = Done a ->
  let h := html_content a in
  let j := data_json a in
  h_current_price h = current_price j
  /\ h_current_ma h = ma_200 j
  /\ direction_label (h_direction h) = j_direction j
  /\ h_abs_std h = abs (std_away j)
  /\ ltb (h_abs_std h) zero = false
  /\ (forall t : tier,
        h_status_color h = status_color t <-> status j = status_label t).
Proof.
  intros Ha. destruct (analysis_inv e a Ha) as (rows & Hd & Hn).
  destruct (analysis_explicit e rows Hd Hn) as (p & Hp & Hex).
  rewrite Ha in Hex. injection Hex as ->. cbn -[tail window].
  repeat (split; [reflexivity | ]).
  split; [apply abs_not_negative | ].
  intros t. split; intros H.
  - apply status_color_inj in H. now rewrite H.
  - apply status_label_inj in H. now rewrite H.
Qed.

Lemma page_agrees_with_summary_witness :
  exists a : artifacts,
    @analysis naive_ops (env_of (swing_rows 249 975)) = Done a
    /\ j_direction (data_json a) = "below"
    /\ ltb (std_away (data_json a)) zero = true
    /\ h_abs_std (html_content a) = abs (std_away (data_json a))
    /\ ltb (h_abs_std (html_content a)) zero = false.
Proof.
  eexists. split; [vm_compute; reflexivity | ].
  split; [vm_compute; reflexivity | ].
  split; [vm_compute; reflexivity | ].
  destruct (@page_agrees_with_summary naive_ops
              (env_of (swing_rows 249 975)) _ ltac:(vm_compute; reflexivity))
    as (_ & _ & _ & H4 & H5 & _).
  split; [exact H4 | exact H5].
Defined.

(** X5.  A row whose price is null never changes the result: the run on a
    download with such a row anywhere in it is the run on the download
    without the row. *)
Theorem null_row_is_ignored {ops : WindowOps} (e1 e2 : env)
    (before after : list row) (r : row) :
  is_nan (close r) = true ->
  download e1 = Done (before ++ r :: after) ->
  download e2 = Done (before ++ after) ->
  now_html e1 = now_html e2 ->
  now_json e1 = now_json e2 ->
  analysis e1 = analysis e2 /\ run e1 = run e2.
Proof.
  intros Hr H1 H2 Hh Hj.
  assert (H : analysis e1 = analysis e2).
  { apply (analysis_same_closes e1 e2 _ _ H1 H2); try assumption.
    rewrite !dropna_app. f_equal. now apply dropna_null. }
  split; [exact H | ]. unfold run. now rewrite H.
Qed.

Lemma null_row_is_ignored_witness :
  @analysis naive_ops
     (env_of (flat_rows 2 ++ {| day := "2025-01-03"; close := nan |}
              :: flat_rows 1))
  = @analysis naive_ops (env_of (flat_rows 2 ++ flat_rows 1)).
Proof.
  apply (@null_row_is_ignored naive_ops
           (env_of (flat_rows 2 ++ {| day := "2025-01-03"; close := nan |}
                    :: flat_rows 1))
           (env_of (flat_rows 2 ++ flat_rows 1))
           (flat_rows 2) (flat_rows 1)
           {| day := "2025-01-03"; close := nan |});
    reflexivity.
Defined.

Section Suffix.

Variable w : nat.
Variable agg : list float -> float.


(** Entries of the rolling series never depend on later samples. *)
Lemma rolling_app_lookup (xs ys : list float) (i : nat) :
  (i < length xs)%nat ->
  rolling w agg (xs ++ ys) !! i = rolling w agg xs !! i.
Proof.
  intros Hi. rewrite !rolling_lookup by (rewrite ?length_app; lia).
  rewrite take_app_le by lia. reflexivity.
Qed.


End Suffix.





(** X7.  The rolling series has no look-ahead: appending later samples
    leaves every earlier entry as it was, for any window length and any
    aggregate. *)
Theorem rolling_has_no_lookahead (w : nat) (agg : list float -> float)
    (xs later : list float) :
  take (length xs) (rolling w agg (xs ++ later)) = rolling w agg xs
  /\ length (rolling w agg (xs ++ later)) = (length xs + length later)%nat.
Proof.
  split; [ | now rewrite rolling_length, length_app].
  apply list_eq. intros i.
  destruct (Nat.lt_ge_cases i (length xs)) as [Hi | Hi].
  - rewrite lookup_take_lt by exact Hi. now apply rolling_app_lookup.
  - rewrite lookup_take_ge by exact Hi.
    symmetry. apply lookup_ge_None_2. now rewrite rolling_length.
Qed.

Section Severity.

Ltac cmp_cases :=
  repeat match goal with
  | |- context [Z.compare ?a ?b] =>
      destruct (Z.compare_spec a b)
  | |- context [PosDef.Pos.compare_cont Eq ?a ?b] =>
      rewrite (compare_cont_Eq a b)
  | |- context [Pos.compare ?a ?b] =>
      destruct (Pos.compare_spec a b)
  end.

Lemma leb_trans (x y z : float) :
  leb x y = true -> leb y z = true -> leb x z = true.
Proof.
  unfold leb, SFleb.
  destruct x as [sx | sx | | sx mx ex], y as [sy | sy | | sy my ey],
    z as [sz | sz | | sz mz ez];
    cbn [SFcompare];
    try (destruct sx); try (destruct sy); try (destruct sz);
    try (intros H; discriminate H); try (intros _ H; discriminate H);
    try (intros; reflexivity).
  all: cmp_cases; cbn [CompOpp]; intros;
    try discriminate; try reflexivity; try lia.
Qed.

Lemma leb_ltb_trans (x y z : float) :
  leb x y = true -> ltb y z = true -> ltb x z = true.
Proof.
  unfold leb, ltb, SFleb, SFltb.
  destruct x as [sx | sx | | sx mx ex], y as [sy | sy | | sy my ey],
    z as [sz | sz | | sz mz ez];
    cbn [SFcompare];
    try (destruct sx); try (destruct sy); try (destruct sz);
    try (intros H; discriminate H); try (intros _ H; discriminate H);
    try (intros; reflexivity).
  all: cmp_cases; cbn [CompOpp]; intros;
    try discriminate; try reflexivity; try lia.
Qed.

(** Two values that are not NaN are comparable. *)
Lemma not_leb_ltb (x y : float) :
  is_nan x = false -> is_nan y = false ->
  leb x y = false -> ltb y x = true.
Proof.
  unfold leb, ltb, SFleb, SFltb. rewrite (compare_antisym x y).
  destruct x as [sx | sx | | sx mx ex], y as [sy | sy | | sy my ey];
    try discriminate; intros _ _;
    destruct (SFcompare _ _) as [[ | | ] | ] eqn:E;
    cbn [option_map CompOpp]; intros H; try discriminate H;
    try reflexivity;
    cbn [SFcompare] in E; try (destruct sx); try (destruct sy);
    discriminate E.
Qed.

Lemma leb_not_nan (x y : float) :
  leb x y = true -> is_nan x = false /\ is_nan y = false.
Proof.
  destruct x, y; cbn; intros H; try discriminate H; split; reflexivity.
Qed.

Lemma abs_opp (x : float) : abs (opp x) = abs x.
Proof. destruct x; reflexivity. Qed.

End Severity.

(** X8.  The status depends on the magnitude of the sigma deviation only,
    and grows with it: a deviation and its opposite have the same status
    and the same alert, and of two deviations the one of larger or equal
    magnitude never has the milder status. *)
Theorem status_grows_with_magnitude :
  (forall x : float,
     classify (opp x) = classify x /\ alert_of (opp x) = alert_of x)
  /\ (forall x y : float,
        leb (abs x) (abs y) = true ->
        (severity (classify x) <= severity (classify y))%nat).
Proof.
  split.
  - intros x. unfold classify, alert_of. now rewrite abs_opp.
  - intros x y H. unfold classify.
    set (a := abs x) in *. set (b := abs y) in *.
    destruct (leb_not_nan a b H) as [Na Nb].
    unfold status_of_abs at 2, in_alert_band.
    destruct (leb two b) eqn:H2b.
    + destruct (leb b three) eqn:H3b; cbn [andb].
      * (* b in the band: a is at most 3 *)
        pose proof (leb_trans a b three H H3b) as H3a.
        unfold status_of_abs, in_alert_band. rewrite H3a, andb_true_r.
        destruct (leb two a) eqn:H2a; [simpl; lia | ].
        rewrite (not_leb_ltb two a eq_refl Na H2a). simpl. lia.
      * (* b above 3 or nothing: EXTREME unless b < 2, which H2b excludes *)
        rewrite (leb_ltb_false two b H2b).
        destruct (status_of_abs a); simpl; lia.
    + cbn [andb].
      pose proof (not_leb_ltb two b eq_refl Nb H2b) as Hb.
      rewrite Hb.
      pose proof (leb_ltb_trans a b two H Hb) as Ha.
      rewrite (status_below_two a Ha). simpl. lia.
Qed.

Lemma status_grows_with_magnitude_witness :
  leb (abs (lit 5 2)) (abs (opp (lit 7 2))) = true
  /\ (severity (classify (lit 5 2))
      <= severity (classify (opp (lit 7 2))))%nat.
Proof.
  assert (H : leb (abs (lit 5 2)) (abs (opp (lit 7 2))) = true)
    by reflexivity.
  split; [exact H | ].
  exact (proj2 status_grows_with_magnitude (lit 5 2) (opp (lit 7 2)) H).
Defined.

(* ===================================================================== *)
(** ** Further properties: what the job publishes, and when it runs *)
(* ===================================================================== *)

Section Publish.

(** The deployment directory before the index page is added: the
    generated files of the working directory, and nothing else. *)
Lemma copied_lookup (wd : gmap string content) (name : string) :
  cp_glob ".log" wd (cp_glob ".json" wd (cp_glob ".png" wd
    (cp_glob ".html" wd ∅))) !! name
  = if generated name then wd !! name else None.
Proof.
  rewrite !cp_glob_lookup, lookup_empty. unfold generated.
  destruct (has_ext ".html" name), (has_ext ".png" name),
    (has_ext ".json" name), (has_ext ".log" name), (wd !! name);
    reflexivity.
Qed.

Lemma job_branch (m : monitor_run) (date : string)
    (checkout gh_pages : gmap string content) :
  branch (snd (job m date checkout gh_pages))
  = deploy (snd (create_deploy_dir date
      (snd (run_analysis m
         {| workdir := checkout; deploy := ∅;
            branch := gh_pages; pushed := false |})))).
Proof.
  rewrite job_unfold. cbn [snd].
  set (r1 := snd (run_analysis m _)).
  pose proof (create_deploy_dir_index date r1) as Hidx.
  set (r2 := snd (create_deploy_dir date r1)) in *.
  unfold deploy_pages. cbn [snd branch].
  destruct (decide (deploy r2 = ∅)) as [E | _]; [ | reflexivity].
  rewrite E, lookup_empty in Hidx. discriminate Hidx.
Qed.

(** The deployment directory after the copy step, name by name. *)
Lemma deploy_dir_lookup (date : string) (r : runner) (name : string) :
  deploy (snd (create_deploy_dir date r)) !! name
  = if decide (name = index_path)
    then Some (match workdir r !! dashboard_path with
               | Some page => page
               | None => fallback_index date
               end)
    else if generated name then workdir r !! name else None.
Proof.
  unfold create_deploy_dir. cbn [snd deploy].
  rewrite (copied_lookup (workdir r) dashboard_path).
  change (generated dashboard_path) with true. cbv iota.
  destruct (decide (name = index_path)) as [-> | Hne].
  - destruct (workdir r !! dashboard_path); apply lookup_insert_eq.
  - destruct (workdir r !! dashboard_path);
      (rewrite lookup_insert_ne by congruence); apply copied_lookup.
Qed.


Lemma monitor_of_raised {ops : WindowOps} (e : env) (x : exn) :
  analysis e = Raised x ->
  monitor_of e = {| m_status := 1; m_files := [] |}.
Proof. intros H. unfold monitor_of. now rewrite (run_raised e x H). Qed.

End Publish.

(** X9.  What the job publishes is decided by the files alone: the tree
    put on the publishing branch holds the index page (the dashboard of
    the working directory, or the fallback page), every file of the
    working directory named *.html, *.png, *.json or *.log, and nothing
    else.  Files of any other name are never published, and nothing of the
    tree that was on the branch before survives. *)
Theorem published_tree (m : monitor_run) (date : string)
    (checkout gh_pages : gmap string content) (name : string) :
  let wd := list_to_map (m_files m) ∪ checkout in
  branch (snd (job m date checkout gh_pages)) !! name
  = if decide (name = index_path)
    then Some (match wd !! dashboard_path with
               | Some page => page
               | None => fallback_index date
               end)
    else if generated name then wd !! name else None.
Proof.
  intros wd. rewrite job_branch, deploy_dir_lookup.
  unfold run_analysis. cbn [snd workdir]. reflexivity.
Qed.

Section Rerun.

Lemma job_pushed (m : monitor_run) (date : string)
    (checkout gh_pages : gmap string content) :
  pushed (snd (job m date checkout gh_pages))
  = bool_decide (branch (snd (job m date checkout gh_pages)) <> gh_pages).
Proof. rewrite job_unfold. reflexivity. Qed.

Lemma job_branch_any (m : monitor_run) (date : string)
    (checkout gh1 gh2 : gmap string content) :
  branch (snd (job m date checkout gh1))
  = branch (snd (job m date checkout gh2)).
Proof. rewrite !job_branch. reflexivity. Qed.

Lemma length_append (s t : string) :
  String.length (s +:+ t) = (String.length s + String.length t)%nat.
Proof. induction s as [ | c s IH]; simpl; [reflexivity | now rewrite IH]. Qed.

Lemma append_inj_l (s1 s2 t : string) : s1 +:+ t = s2 +:+ t -> s1 = s2.
Proof.
  revert s2. induction s1 as [ | c s1 IH]; intros [ | d s2] H;
    try reflexivity.
  - apply (f_equal String.length) in H.
    rewrite !length_append in H. simpl in H. lia.
  - apply (f_equal String.length) in H.
    rewrite !length_append in H. simpl in H. lia.
  - simpl in H. injection H as -> H. f_equal. now apply IH.
Qed.

Lemma fallback_index_inj (d1 d2 : string) :
  fallback_index d1 = fallback_index d2 -> d1 = d2.
Proof.
  unfold fallback_index. intros H. injection H as H.
  apply (inj (String.app _)) in H. now apply append_inj_l in H.
Qed.

End Rerun.

(** X10.  Running the job again on unchanged files deploys nothing: when
    the monitor writes the same files and the date text is the same, the
    tree is the one already on the branch and no commit is pushed. *)
Theorem rerun_pushes_nothing (m : monitor_run) (date : string)
    (checkout gh_pages : gmap string content) :
  let first := job m date checkout gh_pages in
  let again := job m date checkout (branch (snd first)) in
  branch (snd again) = branch (snd first)
  /\ pushed (snd again) = false.
Proof.
  intros first again.
  assert (H : branch (snd again) = branch (snd first))
    by apply job_branch_any.
  split; [exact H | ].
  unfold again. rewrite job_pushed. fold again. rewrite H.
  apply bool_decide_eq_false. intros Hne. now apply Hne.
Qed.



(** X12.  When the analysis fails as the monitor of the job and the
    checkout holds no dashboard, the job still deploys: the index page is
    the "Dashboard Error" page, no dashboard is published, and because the
    page carries the date text, the next failing run with another date
    text pushes a commit again. *)
Theorem failed_run_publishes_error_page {ops : WindowOps} (e : env)
    (x : exn) (date : string) (checkout gh_pages : gmap string content) :
  analysis e = Raised x ->
  checkout !! dashboard_path = None ->
  let r := job (monitor_of e) date checkout gh_pages in
  fst r = 0
  /\ branch (snd r) !! index_path = Some (fallback_index date)
  /\ branch (snd r) !! dashboard_path = None
  /\ (forall later : string, later <> date ->
        pushed (snd (job (monitor_of e) later checkout (branch (snd r))))
        = true).
Proof.
  intros Ha Hc r. unfold r.
  split; [now rewrite job_unfold | ].
  assert (Hidx : forall d gh,
            branch (snd (job (monitor_of e) d checkout gh)) !! index_path
            = Some (fallback_index d)).
  { intros d gh. rewrite job_branch, deploy_dir_lookup.
    rewrite (monitor_of_raised e x Ha).
    unfold run_analysis. cbn [snd workdir m_files list_to_map foldr].
    rewrite (lookup_union_r ∅) by apply lookup_empty.
    rewrite Hc. reflexivity. }
  split; [apply Hidx | ]. split.
  - rewrite job_branch, deploy_dir_lookup.
    rewrite (monitor_of_raised e x Ha).
    unfold run_analysis. cbn [snd workdir m_files list_to_map foldr].
    rewrite !(lookup_union_r ∅) by apply lookup_empty.
    rewrite Hc. reflexivity.
  - intros later Hl. rewrite job_pushed. apply bool_decide_eq_true.
    intros E. apply (f_equal (fun t => t !! index_path)) in E.
    rewrite !Hidx in E.
    apply Hl, fallback_index_inj. now apply (inj Some) in E.
Qed.

Lemma failed_run_publishes_error_page_witness :
  branch (snd (job (@monitor_of naive_ops (env_of []))
                 "Mon Jun 30 14:30:00 UTC 2025" ∅ ∅)) !! index_path
  = Some (fallback_index "Mon Jun 30 14:30:00 UTC 2025").
Proof.
  apply (@failed_run_publishes_error_page naive_ops (env_of []) IndexError
           "Mon Jun 30 14:30:00 UTC 2025" ∅ ∅);
    reflexivity.
Defined.

(** X13.  The job is scheduled at minute 30 of the UTC hours 13, 15, 17
    and 19, Monday to Friday, and at no other time: on a weekday it runs
    four times, two hours apart, never at an even hour (so not every
    hour), and it never runs on a Saturday or a Sunday. *)
Theorem schedule_fires_every_two_hours (t : Cron.instant) :
  (Cron.fires Cron.schedule t = true
   <-> Cron.i_minute t = 30%nat
       /\ (Cron.i_hour t = 13%nat \/ Cron.i_hour t = 15%nat
           \/ Cron.i_hour t = 17%nat \/ Cron.i_hour t = 19%nat)
       /\ (1 <= Cron.i_weekday t <= 5)%nat)
  /\ (Nat.even (Cron.i_hour t) = true -> Cron.fires Cron.schedule t = false)
  /\ (Cron.i_weekday t = 0%nat \/ Cron.i_weekday t = 6%nat ->
      Cron.fires Cron.schedule t = false).
Proof.
  assert (Hiff : Cron.fires Cron.schedule t = true
     <-> Cron.i_minute t = 30%nat
         /\ (Cron.i_hour t = 13%nat \/ Cron.i_hour t = 15%nat
             \/ Cron.i_hour t = 17%nat \/ Cron.i_hour t = 19%nat)
         /\ (1 <= Cron.i_weekday t <= 5)%nat).
  { destruct t as [mi h d mo wd]. unfold Cron.fires, Cron.day_matches.
    cbn [Cron.schedule Cron.minute Cron.hour Cron.month Cron.day_of_month
         Cron.day_of_week Cron.field_matches Cron.i_minute Cron.i_hour
         Cron.i_month Cron.i_weekday Cron.i_day].
    rewrite !andb_true_iff, !Nat.eqb_eq, !Nat.leb_le, Nat.mod_1_r.
    split.
    - intros (((Hm & (H1 & H2) & H3) & _) & (Hw1 & Hw2) & _).
      split; [exact Hm | ]. split; [ | lia].
      assert (h = 13 \/ h = 14 \/ h = 15 \/ h = 16 \/ h = 17 \/ h = 18
              \/ h = 19 \/ h = 20)%nat as Hh by lia.
      destruct Hh as [-> | [-> | [-> | [-> | [-> | [-> | [-> | ->]]]]]]];
        try discriminate H3; tauto.
    - intros (Hm & Hh & Hw).
      assert (Hstep : ((13 <= h /\ h <= 20) /\ (h - 13) mod 2 = 0)%nat).
      { destruct Hh as [-> | [-> | [-> | ->]]]; split; reflexivity || lia. }
      repeat split; try tauto; try lia. }
  split; [exact Hiff | ]. split.
  - intros He. destruct (Cron.fires Cron.schedule t) eqn:F; [ | reflexivity].
    destruct Hiff as [Hf _]. destruct (Hf eq_refl) as (_ & Hh & _).
    destruct Hh as [E | [E | [E | E]]]; rewrite E in He; discriminate He.
  - intros Hw. destruct (Cron.fires Cron.schedule t) eqn:F; [ | reflexivity].
    destruct Hiff as [Hf _]. destruct (Hf eq_refl) as (_ & _ & Hd). lia.
Qed.

Lemma schedule_fires_every_two_hours_witness :
  Cron.fires Cron.schedule
    {| Cron.i_minute := 30; Cron.i_hour := 14; Cron.i_day := 30;
       Cron.i_month := 6; Cron.i_weekday := 1 |} = false.
Proof.
  exact (proj1 (proj2 (schedule_fires_every_two_hours
           {| Cron.i_minute := 30; Cron.i_hour := 14; Cron.i_day := 30;
              Cron.i_month := 6; Cron.i_weekday := 1 |})) eq_refl).
Defined.
